(** * SCG_LocalVLM: the node registration tables of [__init__.py]

    The package initialiser is three statements long: a wildcard import of
    the sibling module [nodes], and two assignments of dict displays to the
    names [NODE_CLASS_MAPPINGS] and [NODE_DISPLAY_NAME_MAPPINGS].

    The statements are embedded as computations of a small state-and-error
    monad over the interpreter state a module body can touch: the module's
    own global namespace, the [sys.modules] cache and the rest of the
    process.  The sibling module [nodes] is not part of the development; its
    loading is a parameter. *)

From Stdlib Require Import Ascii.
From stdpp Require Import gmap strings list fin_maps.

Open Scope string_scope.

(** ** Values *)

(** Objects of the collaborator (classes, functions, the module object
    itself) are known by their identity only.  Strings and dicts are the two
    kinds of object the initialiser creates itself; a dict is carried by its
    content (which keys it has and the value under each), which is how the
    mappings are compared; the order in which a dict yields its keys is not
    represented. *)
#[warnings="-register-all"] Inductive pyval : Type :=
  | PyObj (id : positive)
  | PyStr (s : string)
  | PyDict (d : gmap string pyval).

(** An exception leaving a statement: the [NameError] of an unbound name, or
    whatever finding and running a module raised. *)
Inductive pyexn : Type :=
  | NameError (name : string)
  | AttributeError (obj : positive) (name : string)
  | Raised (e : pyval).

(** A loaded module, as far as an importer sees it: the module object, its
    namespace, and its [__all__] when it defines one (taken to be a list of
    strings). *)
Record pymodule : Type := PyModule {
  mod_obj : positive;
  mod_dict : gmap string pyval;
  mod_all : option (list string)
}.

(** A name is public when it does not start with an underscore. *)
Definition is_public_name (n : string) : bool :=
  match n with
  | String "_"%char _ => false
  | _ => true
  end.

(** The names a wildcard import takes from a module: those of [__all__] when
    the module defines it, whether the module has them or not, and otherwise
    the public names of its namespace. *)
Definition star_names (m : pymodule) : list string :=
  match mod_all m with
  | Some names => names
  | None => filter (λ n, is_public_name n) (map_to_list (mod_dict m)).*1
  end.

(** The public names of a module with their values: what a wildcard import
    that does not raise binds. *)
Definition mod_public (m : pymodule) : gmap string pyval :=
  filter (λ kv, kv.1 ∈ star_names m) (mod_dict m).

(** ** Interpreter state *)

(** What lies outside the module: the cache of loaded modules, keyed by
    dotted module name, and everything else of the process and its
    surroundings (files, network, devices), which the development never
    inspects. *)
Record world (E : Type) : Type := World {
  sys_modules : gmap string pymodule;
  env : E
}.
Arguments World {E} _ _.
Arguments sys_modules {E} _.
Arguments env {E} _.

(** The state a module body runs in: the world and the module's own global
    namespace (at module level, local names are the globals). *)
Record state (E : Type) : Type := State {
  st_world : world E;
  globals : gmap string pyval
}.
Arguments State {E} _ _.
Arguments st_world {E} _.
Arguments globals {E} _.

(** Finding, loading and initialising a module that is not cached yet: it
    may do anything to the world, and either raises or yields the module.
    Running the module is taken to leave the namespace of the importing
    package alone; a [nodes.py] that itself imports a sibling submodule would
    bind that submodule's name there. *)
Definition loader (E : Type) : Type := world E → (pyexn + pymodule) * world E.

(** ** The monad of statements *)

(** A statement or expression either raises or returns, and leaves a state
    behind in both cases: what was bound before an exception stays bound. *)
Definition M (E A : Type) : Type := state E → (pyexn + A) * state E.

Definition ret {E A} (a : A) : M E A := λ s, (inr a, s).

Definition raise {E A} (e : pyexn) : M E A := λ s, (inl e, s).

Definition bind {E A B} (m : M E A) (k : A → M E B) : M E B :=
  λ s, match m s with
       | (inl e, s') => (inl e, s')
       | (inr a, s') => k a s'
       end.

#[global] Instance M_ret {E} : MRet (M E) := λ A, ret.
#[global] Instance M_bind {E} : MBind (M E) := λ A B k m, bind m k.

(** Reading a name at module level.  The builtins, which Python consults
    after the globals, hold none of the names this module reads and are left
    out. *)
Definition load_name {E} (n : string) : M E pyval :=
  λ s, match globals s !! n with
       | Some v => ret v s
       | None => raise (NameError n) s
       end.

(** Assignment to a name at module level: the binding is replaced. *)
Definition store_name {E} (n : string) (v : pyval) : M E unit :=
  λ s, (inr tt, State (st_world s) (<[n := v]> (globals s))).

(** ** Dict displays *)

(** An item [key: expr] of a display whose keys are string literals. *)
Definition item (E : Type) : Type := string * M E pyval.

(** The value expressions are evaluated from left to right. *)
Fixpoint eval_items {E} (items : list (item E)) : M E (list (string * pyval)) :=
  match items with
  | [] => ret []
  | (k, e) :: rest =>
      v ← e;
      kvs ← eval_items rest;
      ret ((k, v) :: kvs)
  end.

(** The pairs are then entered into a fresh dict in the order written; an
    entry whose key is already present replaces the value. *)
Definition dict_of_items (kvs : list (string * pyval)) : gmap string pyval :=
  foldl (λ d kv, <[kv.1 := kv.2]> d) ∅ kvs.

Definition dict_display {E} (items : list (item E)) : M E pyval :=
  kvs ← eval_items items;
  ret (PyDict (dict_of_items kvs)).

(** ** The import statement *)

(** [import_module name ld]: the module [name] is taken from [sys.modules]
    when it is cached there; otherwise [ld] loads it.  A module that loaded
    is entered in the cache; one that raised is not, and its exception is
    passed on as it is.  The flag tells whether the module was loaded by this
    call. *)
Definition import_module {E} (name : string) (ld : loader E) : M E (pymodule * bool) :=
  λ s, let w := st_world s in
       match sys_modules w !! name with
       | Some m => (inr (m, false), s)
       | None =>
           match ld w with
           | (inl e, w') =>
               (inl e, State (World (delete name (sys_modules w')) (env w')) (globals s))
           | (inr m, w') =>
               (inr (m, true), State (World (<[name := m]> (sys_modules w')) (env w')) (globals s))
           end
       end.

(** The binding step of a wildcard import: the names are taken one by one;
    each is read from the module and bound in the importing namespace.  A name
    the module lacks raises [AttributeError], and the names bound before it
    stay bound. *)
Fixpoint import_all_from {E} (m : pymodule) (names : list string) : M E unit :=
  match names with
  | [] => ret tt
  | n :: rest =>
      match mod_dict m !! n with
      | Some v => store_name n v ;; import_all_from m rest
      | None => raise (AttributeError (mod_obj m) n)
      end
  end.

(** [from .nodes import *] in the initialiser of package [pkg].  A submodule
    that is loaded (not merely found in the cache) is bound under its own name
    in the namespace of its package, which is the namespace of this module;
    then the names the wildcard takes are bound. *)
Definition import_star_nodes {E} (pkg : string) (nodes : loader E) : M E unit :=
  '(m, loaded) ← import_module (pkg +:+ ".nodes") nodes;
  (if loaded : bool then store_name "nodes" (PyObj (mod_obj m)) else ret tt) ;;
  import_all_from m (star_names m).

(** ** The module *)

(** The items of the two displays, as written. *)
Definition class_items {E} : list (item E) :=
  [ ("Qwen2.5VL", load_name "QwenVL");
    ("Qwen2.5", load_name "Qwen");
    ("QwenVL", load_name "QwenVL");
    ("Qwen", load_name "Qwen") ].

Definition display_items {E} : list (item E) :=
  [ ("Qwen2.5VL", ret (PyStr "Qwen2.5VL"));
    ("Qwen2.5", ret (PyStr "Qwen2.5"));
    ("QwenVL", ret (PyStr "QwenVL"));
    ("Qwen", ret (PyStr "Qwen")) ].

Definition NODE_CLASS_MAPPINGS {E} : M E pyval := dict_display class_items.

Definition NODE_DISPLAY_NAME_MAPPINGS {E} : M E pyval := dict_display display_items.

(** The body of [__init__.py], statement by statement. *)
Definition init_module {E} (pkg : string) (nodes : loader E) : M E unit :=
  import_star_nodes pkg nodes ;;
  (v ← NODE_CLASS_MAPPINGS; store_name "NODE_CLASS_MAPPINGS" v) ;;
  (v ← NODE_DISPLAY_NAME_MAPPINGS; store_name "NODE_DISPLAY_NAME_MAPPINGS" v).

(** What a reader of the module finds under a name that should hold a
    mapping. *)
Definition mapping_of {E} (name : string) (s : state E) : option (gmap string pyval) :=
  match globals s !! name with
  | Some (PyDict d) => Some d
  | _ => None
  end.

(** The four identifiers the module declares. *)
Definition declared_ids : list string :=
  ["Qwen2.5VL"; "Qwen2.5"; "QwenVL"; "Qwen"].

(** The names under which the host reads the two mappings. *)
Definition class_name : string := "NODE_CLASS_MAPPINGS".
Definition display_name : string := "NODE_DISPLAY_NAME_MAPPINGS".

(** The dicts the two displays evaluate to, given the values read for the
    names [QwenVL] and [Qwen] (lemmas [NODE_CLASS_MAPPINGS_run] and
    [NODE_DISPLAY_NAME_MAPPINGS_run]). *)
Definition class_table (QwenVL Qwen : pyval) : gmap string pyval :=
  dict_of_items
    [ ("Qwen2.5VL", QwenVL); ("Qwen2.5", Qwen); ("QwenVL", QwenVL); ("Qwen", Qwen) ].

Definition display_table : gmap string pyval :=
  dict_of_items
    [ ("Qwen2.5VL", PyStr "Qwen2.5VL"); ("Qwen2.5", PyStr "Qwen2.5");
      ("QwenVL", PyStr "QwenVL"); ("Qwen", PyStr "Qwen") ].

(** Every name the wildcard import takes from [m] is defined in [m]; this
    can fail only for a name listed in [__all__]. *)
Definition star_ok (m : pymodule) : Prop :=
  Forall (λ n, is_Some (mod_dict m !! n)) (star_names m).

(** The namespace the import statement leaves when it found module [m]:
    freshly loaded ([loaded = true]) or cached. *)
Definition star_imported (m : pymodule) (loaded : bool)
    (g : gmap string pyval) : gmap string pyval :=
  mod_public m ∪ (if loaded then <["nodes" := PyObj (mod_obj m)]> g else g).

(** The namespace once both assignments have run on namespace [g], where the
    names [QwenVL] and [Qwen] held [a] and [b]. *)
Definition registered (a b : pyval) (g : gmap string pyval) : gmap string pyval :=
  <[display_name := PyDict display_table]> (<[class_name := PyDict (class_table a b)]> g).

(** ** Sample collaborators

    Concrete inputs on which the statements below are exercised.  The rest of
    the process is reduced to a counter of the files the collaborator has
    read. *)

(** A [nodes] module that provides both classes. *)
Definition sample_module : pymodule :=
  PyModule 3 (<["QwenVL" := PyObj 1]> (<["Qwen" := PyObj 2]> ∅)) None.

Definition sample_nodes : loader nat :=
  λ w, (inr sample_module, World (sys_modules w) (S (env w))).

(** A [nodes] module that loads but defines no public name. *)
Definition bare_module : pymodule := PyModule 3 ∅ None.

Definition bare_nodes : loader nat :=
  λ w, (inr bare_module, World (sys_modules w) (S (env w))).

(** A [nodes] module whose [__all__] lists a class it does not define. *)
Definition partial_module : pymodule :=
  PyModule 3 {["QwenVL" := PyObj 1]} (Some ["QwenVL"; "Qwen"]).

Definition partial_nodes : loader nat :=
  λ w, (inr partial_module, World (sys_modules w) (S (env w))).

(** A [nodes] module whose loading raises. *)
Definition broken_nodes : loader nat :=
  λ w, (inl (Raised (PyObj 9)), World (sys_modules w) (S (env w))).

(** A process in which nothing of the package is loaded yet. *)
Definition fresh_state : state nat := State (World ∅ 0) ∅.

(** The package name under which the sample process loads the module, and
    the state its first load leaves. *)
Definition sample_pkg : string := "SCG_LocalVLM".

Definition sample_loaded : state nat :=
  (init_module sample_pkg sample_nodes fresh_state).2.

(** A process in which [nodes] is cached but no longer provides the classes,
    while the namespace of the package still binds them from an earlier
    load. *)
Definition stale_state : state nat :=
  State (World {["SCG_LocalVLM.nodes" := bare_module]} 0)
        (<["QwenVL" := PyObj 1]> (<["Qwen" := PyObj 2]> ∅)).

(** A process in which [nodes] is not cached, while the namespace of the
    package binds the two class names to objects of an earlier load. *)
Definition outdated_state : state nat :=
  State (World ∅ 0) (<["QwenVL" := PyObj 7]> (<["Qwen" := PyObj 8]> ∅)).

(** * Properties *)

(** ** Running computations *)

Section Run.
Context {E : Type}.
Implicit Types (s : state E) (e : pyexn).

Lemma run_bind {A B} (m : M E A) (k : A → M E B) s :
  (m ≫= k) s =
  match m s with
  | (inl e, s') => (inl e, s')
  | (inr a, s') => k a s'
  end.
Proof. reflexivity. Qed.
End Run.

(** ** Building a dict from pairs *)

Section DictOfItems.
Implicit Types (kvs : list (string * pyval)) (k : string) (v : pyval).

(** Entering one more pair is an insertion into the dict built so far. *)
Lemma dict_of_items_snoc kvs k v :
  dict_of_items (kvs ++ [(k, v)]) = <[k := v]> (dict_of_items kvs).
Proof. unfold dict_of_items. rewrite foldl_app. reflexivity. Qed.

Lemma lookup_dict_of_items_snoc_ne kvs k v k' :
  k ≠ k' → dict_of_items (kvs ++ [(k, v)]) !! k' = dict_of_items kvs !! k'.
Proof. intros Hne. rewrite dict_of_items_snoc. by apply lookup_insert_ne. Qed.

(** Later entries shadow earlier ones: the value found under [k] is the one
    of the last pair whose key is [k]. *)
Lemma lookup_dict_of_items_last kvs1 kvs2 k v :
  k ∉ kvs2.*1 →
  dict_of_items (kvs1 ++ (k, v) :: kvs2) !! k = Some v.
Proof.
  revert kvs1. induction kvs2 as [|[k' v'] kvs2 IH] using rev_ind; intros kvs1 Hk.
  - rewrite dict_of_items_snoc. apply lookup_insert_eq.
  - rewrite fmap_app, elem_of_app in Hk. simpl in Hk.
    rewrite app_comm_cons, app_assoc, lookup_dict_of_items_snoc_ne.
    + apply IH. tauto.
    + intros ->. apply Hk. right. apply list_elem_of_singleton. reflexivity.
Qed.

(** Without duplicate keys, every pair is found again. *)
Lemma lookup_dict_of_items_NoDup kvs k v :
  NoDup kvs.*1 → (k, v) ∈ kvs → dict_of_items kvs !! k = Some v.
Proof.
  intros Hnd Hin. apply list_elem_of_split in Hin as (l1 & l2 & ->).
  apply lookup_dict_of_items_last.
  rewrite fmap_app, fmap_cons in Hnd. simpl in Hnd.
  apply NoDup_app in Hnd as (_ & _ & Hnd). by apply NoDup_cons in Hnd as [? _].
Qed.
End DictOfItems.

(** ** The binding step of the wildcard import *)

Section Wildcard.
Context {E : Type}.
Implicit Types (s : state E) (m : pymodule) (names : list string) (k n : string).

Lemma import_all_from_cons m n names s :
  import_all_from m (n :: names) s =
  match mod_dict m !! n with
  | Some v => import_all_from m names (State (st_world s) (<[n := v]> (globals s)))
  | None => (inl (AttributeError (mod_obj m) n), s)
  end.
Proof. simpl. destruct (mod_dict m !! n); reflexivity. Qed.

(** Whether it raises or not, the step leaves the world alone and binds
    only names that are taken and that the module defines. *)
Lemma import_all_from_frame m names s :
  st_world (import_all_from m names s).2 = st_world s ∧
  ∀ k, k ∉ names ∨ mod_dict m !! k = None →
       globals (import_all_from m names s).2 !! k = globals s !! k.
Proof.
  revert s. induction names as [|n names IH]; intros s; [done|].
  rewrite import_all_from_cons.
  destruct (mod_dict m !! n) as [v|] eqn:Hn; [|done].
  destruct (IH (State (st_world s) (<[n := v]> (globals s)))) as [Hw Hg].
  split; [exact Hw|]. intros k Hk. rewrite Hg.
  - simpl. apply lookup_insert_ne. intros ->.
    destruct Hk as [Hk|Hk]; [apply Hk; left | congruence].
  - destruct Hk as [Hk|Hk]; [left; intros ?; apply Hk; by right | by right].
Qed.

Lemma lookup_filter_names (d : gmap string pyval) names k :
  filter (λ kv, kv.1 ∈ names) d !! k =
  if decide (k ∈ names) then d !! k else None.
Proof.
  apply option_eq. intros v. rewrite map_lookup_filter_Some. simpl.
  destruct (decide (k ∈ names)); intuition congruence.
Qed.

(** When the module defines every name taken, the step does not raise and
    the names shadow whatever the namespace held. *)
Lemma import_all_from_ok m names s :
  Forall (λ n, is_Some (mod_dict m !! n)) names →
  import_all_from m names s =
  (inr tt, State (st_world s)
             (filter (λ kv, kv.1 ∈ names) (mod_dict m) ∪ globals s)).
Proof.
  revert s. induction names as [|n names IH]; intros s Hall.
  - simpl. unfold ret. destruct s as [w g]. simpl. do 2 f_equal.
    apply map_eq. intros k. rewrite lookup_union, lookup_filter_names.
    rewrite decide_False by apply not_elem_of_nil. by rewrite (left_id None _).
  - apply Forall_cons in Hall as [Hn Hall].
    rewrite import_all_from_cons.
    destruct (mod_dict m !! n) as [v|] eqn:Hv; [|by destruct Hn].
    rewrite (IH _ Hall). simpl. do 2 f_equal.
    apply map_eq. intros k. rewrite !lookup_union, !lookup_filter_names.
    destruct (decide (k = n)) as [->|Hne].
    + rewrite (decide_True (P := n ∈ n :: names)) by left.
      rewrite lookup_insert_eq, Hv.
      by destruct (decide (n ∈ names)), (globals s !! n).
    + rewrite lookup_insert_ne by done.
      destruct (decide (k ∈ names)) as [Hin|Hnin].
      * by rewrite decide_True by (by right).
      * rewrite decide_False; [done|]. by intros [?|?]%elem_of_cons.
Qed.

(** A step that raises met a name the module lacks; one that does not raise
    found every name. *)
Lemma import_all_from_inv m names s r s' :
  import_all_from m names s = (r, s') →
  match r with
  | inr _ => Forall (λ n, is_Some (mod_dict m !! n)) names
  | inl e => ∃ n, n ∈ names ∧ mod_dict m !! n = None ∧
                  e = AttributeError (mod_obj m) n
  end.
Proof.
  revert s. induction names as [|n names IH]; intros s.
  - intros [= <- _]. constructor.
  - rewrite import_all_from_cons.
    destruct (mod_dict m !! n) as [v|] eqn:Hn.
    + intros Hrun. apply IH in Hrun. destruct r as [e|[]].
      * destruct Hrun as (n' & Hin & Hnone & ->). exists n'.
        split; [by right|done].
      * constructor; [by eexists | done].
    + intros [= <- _]. exists n. split; [by left|done].
Qed.

Lemma import_all_from_star_ok m s :
  star_ok m →
  import_all_from m (star_names m) s =
  (inr tt, State (st_world s) (mod_public m ∪ globals s)).
Proof. apply import_all_from_ok. Qed.

(** Without [__all__] every name taken is defined. *)
Lemma star_ok_without_all m : mod_all m = None → star_ok m.
Proof.
  intros Hall. unfold star_ok, star_names. rewrite Hall.
  apply Forall_forall. intros n [_ Hin]%list_elem_of_filter.
  apply list_elem_of_fmap in Hin as ([k v] & -> & Hin).
  apply elem_of_map_to_list in Hin. by eexists.
Qed.

Lemma mod_public_None m k :
  mod_public m !! k = None ↔ k ∉ star_names m ∨ mod_dict m !! k = None.
Proof.
  unfold mod_public. rewrite lookup_filter_names.
  destruct (decide (k ∈ star_names m)); intuition.
Qed.
End Wildcard.

(** ** The statements of the module *)

Section Statements.
Context {E : Type}.
Implicit Types (s : state E) (w : world E) (nodes : loader E) (pkg : string).

Lemma NODE_CLASS_MAPPINGS_run s :
  NODE_CLASS_MAPPINGS s =
  match globals s !! "QwenVL" with
  | None => (inl (NameError "QwenVL"), s)
  | Some a =>
      match globals s !! "Qwen" with
      | None => (inl (NameError "Qwen"), s)
      | Some b => (inr (PyDict (class_table a b)), s)
      end
  end.
Proof.
  unfold NODE_CLASS_MAPPINGS, dict_display, class_items, eval_items.
  unfold mbind, M_bind, bind, load_name, ret, raise.
  destruct (globals s !! "QwenVL") as [a|] eqn:Ha; [|reflexivity].
  destruct (globals s !! "Qwen") as [b|] eqn:Hb;
    repeat (rewrite ?Ha, ?Hb; cbv beta iota); reflexivity.
Qed.

Lemma NODE_DISPLAY_NAME_MAPPINGS_run s :
  NODE_DISPLAY_NAME_MAPPINGS s = (inr (PyDict display_table), s).
Proof. reflexivity. Qed.

Lemma import_star_nodes_run pkg nodes s :
  import_star_nodes pkg nodes s =
  match sys_modules (st_world s) !! (pkg +:+ ".nodes") with
  | Some m => import_all_from m (star_names m) s
  | None =>
      match nodes (st_world s) with
      | (inl e, w') =>
          (inl e, State (World (delete (pkg +:+ ".nodes") (sys_modules w')) (env w'))
                        (globals s))
      | (inr m, w') =>
          import_all_from m (star_names m)
            (State (World (<[pkg +:+ ".nodes" := m]> (sys_modules w')) (env w'))
                   (<["nodes" := PyObj (mod_obj m)]> (globals s)))
      end
  end.
Proof.
  unfold import_star_nodes, import_module, mbind, M_bind, bind.
  destruct (sys_modules (st_world s) !! (pkg +:+ ".nodes")) as [m|].
  - by destruct s.
  - destruct (nodes (st_world s)) as [[e|m] w']; reflexivity.
Qed.

(** The module body after the import: the two assignments. *)
Lemma init_module_run pkg nodes s :
  init_module pkg nodes s =
  match import_star_nodes pkg nodes s with
  | (inl e, si) => (inl e, si)
  | (inr _, si) =>
      match globals si !! "QwenVL" with
      | None => (inl (NameError "QwenVL"), si)
      | Some a =>
          match globals si !! "Qwen" with
          | None => (inl (NameError "Qwen"), si)
          | Some b => (inr tt, State (st_world si) (registered a b (globals si)))
          end
      end
  end.
Proof.
  unfold init_module. rewrite run_bind.
  destruct (import_star_nodes pkg nodes s) as [[e|[]] si]; [reflexivity|].
  rewrite run_bind, run_bind, NODE_CLASS_MAPPINGS_run.
  destruct (globals si !! "QwenVL") as [a|]; [|reflexivity].
  destruct (globals si !! "Qwen") as [b|]; reflexivity.
Qed.

(** A load that succeeds went through a successful import, found both
    class names bound, and ran both assignments. *)
Lemma init_module_ok_inv pkg nodes s s' :
  init_module pkg nodes s = (inr tt, s') →
  ∃ si a b,
    import_star_nodes pkg nodes s = (inr tt, si) ∧
    globals si !! "QwenVL" = Some a ∧
    globals si !! "Qwen" = Some b ∧
    s' = State (st_world si) (registered a b (globals si)).
Proof.
  rewrite init_module_run.
  destruct (import_star_nodes pkg nodes s) as [[e|[]] si]; [discriminate|].
  destruct (globals si !! "QwenVL") as [a|] eqn:Ha; [|discriminate].
  destruct (globals si !! "Qwen") as [b|] eqn:Hb; [|discriminate].
  intros [= <-]. by exists si, a, b.
Qed.

Lemma mapping_of_class a b w g :
  mapping_of class_name (State w (registered a b g)) = Some (class_table a b).
Proof.
  unfold mapping_of, registered. simpl.
  rewrite lookup_insert_ne by discriminate. by rewrite lookup_insert_eq.
Qed.

Lemma mapping_of_display a b w g :
  mapping_of display_name (State w (registered a b g)) = Some display_table.
Proof. unfold mapping_of, registered. simpl. by rewrite lookup_insert_eq. Qed.

(** What a successful load leaves under the two names. *)
Lemma init_module_mappings pkg nodes s s' :
  init_module pkg nodes s = (inr tt, s') →
  ∃ a b, mapping_of class_name s' = Some (class_table a b) ∧
         mapping_of display_name s' = Some display_table.
Proof.
  intros (si & a & b & _ & _ & _ & ->)%init_module_ok_inv.
  exists a, b. split; [apply mapping_of_class | apply mapping_of_display].
Qed.
End Statements.

(** ** The two tables *)

Section Tables.
Implicit Types (a b v : pyval) (k : string).

Lemma NoDup_declared_ids : NoDup declared_ids.
Proof.
  unfold declared_ids.
  repeat (constructor;
          [rewrite ?elem_of_cons, ?elem_of_nil; intuition discriminate|]).
  constructor.
Qed.

Lemma elem_of_declared_ids k :
  k ∈ declared_ids ↔ k = "Qwen2.5VL" ∨ k = "Qwen2.5" ∨ k = "QwenVL" ∨ k = "Qwen".
Proof.
  unfold declared_ids. rewrite !elem_of_cons, elem_of_nil. intuition.
Qed.

Lemma class_table_lookup a b :
  class_table a b !! "Qwen2.5VL" = Some a ∧
  class_table a b !! "Qwen2.5" = Some b ∧
  class_table a b !! "QwenVL" = Some a ∧
  class_table a b !! "Qwen" = Some b.
Proof. repeat split; vm_compute; reflexivity. Qed.

Lemma display_table_lookup :
  display_table !! "Qwen2.5VL" = Some (PyStr "Qwen2.5VL") ∧
  display_table !! "Qwen2.5" = Some (PyStr "Qwen2.5") ∧
  display_table !! "QwenVL" = Some (PyStr "QwenVL") ∧
  display_table !! "Qwen" = Some (PyStr "Qwen").
Proof. repeat split; vm_compute; reflexivity. Qed.

Lemma class_table_is_Some a b k :
  is_Some (class_table a b !! k) ↔ k ∈ declared_ids.
Proof.
  unfold class_table, dict_of_items, declared_ids. cbn [foldl fst snd].
  rewrite !lookup_insert_is_Some', lookup_empty, !elem_of_cons, elem_of_nil.
  pose proof (@is_Some_None pyval). intuition congruence.
Qed.

Lemma display_table_is_Some k :
  is_Some (display_table !! k) ↔ k ∈ declared_ids.
Proof.
  unfold display_table, dict_of_items, declared_ids. cbn [foldl fst snd].
  rewrite !lookup_insert_is_Some', lookup_empty, !elem_of_cons, elem_of_nil.
  pose proof (@is_Some_None pyval). intuition congruence.
Qed.

Lemma class_table_dom a b : dom (class_table a b) = list_to_set declared_ids.
Proof.
  apply set_eq. intros k.
  rewrite elem_of_dom, elem_of_list_to_set. apply class_table_is_Some.
Qed.

Lemma display_table_dom : dom display_table = list_to_set declared_ids.
Proof.
  apply set_eq. intros k.
  rewrite elem_of_dom, elem_of_list_to_set. apply display_table_is_Some.
Qed.

Lemma size_declared_ids : size (list_to_set declared_ids : gset string) = 4.
Proof. rewrite size_list_to_set by apply NoDup_declared_ids. reflexivity. Qed.

Lemma class_table_size a b : size (class_table a b) = 4.
Proof. rewrite <- size_dom, class_table_dom. apply size_declared_ids. Qed.

Lemma display_table_size : size display_table = 4.
Proof. rewrite <- size_dom, display_table_dom. apply size_declared_ids. Qed.

Lemma display_table_value k v : display_table !! k = Some v → v = PyStr k.
Proof.
  intros Hk. pose proof display_table_lookup as (H1 & H2 & H3 & H4).
  assert (k ∈ declared_ids) as Hin by (apply display_table_is_Some; eauto).
  apply elem_of_declared_ids in Hin as [-> | [-> | [-> | ->]]]; congruence.
Qed.
End Tables.

(** ** The mappings of a loaded module *)

(** C1: after a load that succeeds, both [NODE_CLASS_MAPPINGS] and
    [NODE_DISPLAY_NAME_MAPPINGS] hold a mapping, and each of the four declared
    identifiers "Qwen2.5VL", "Qwen2.5", "QwenVL" and "Qwen" is a key of
    both. *)
Theorem declared_ids_in_both_mappings {E} pkg (nodes : loader E) (s s' : state E) :
  init_module pkg nodes s = (inr tt, s') →
  ∃ dc dd,
    mapping_of class_name s' = Some dc ∧
    mapping_of display_name s' = Some dd ∧
    declared_ids = ["Qwen2.5VL"; "Qwen2.5"; "QwenVL"; "Qwen"] ∧
    ∀ k, k ∈ declared_ids → is_Some (dc !! k) ∧ is_Some (dd !! k).
Proof.
  intros (a & b & Hc & Hd)%init_module_mappings.
  exists (class_table a b), display_table. repeat split; try assumption.
  - by apply class_table_is_Some.
  - by apply display_table_is_Some.
Qed.

Lemma declared_ids_in_both_mappings_witness :
  init_module sample_pkg sample_nodes fresh_state = (inr tt, sample_loaded) ∧
  ∃ dc dd,
    mapping_of class_name sample_loaded = Some dc ∧
    mapping_of display_name sample_loaded = Some dd ∧
    declared_ids = ["Qwen2.5VL"; "Qwen2.5"; "QwenVL"; "Qwen"] ∧
    ∀ k, k ∈ declared_ids → is_Some (dc !! k) ∧ is_Some (dd !! k).
Proof.
  split; [vm_compute; reflexivity|].
  apply (declared_ids_in_both_mappings sample_pkg sample_nodes fresh_state).
  vm_compute; reflexivity.
Defined.

(** C2: each of the two mappings of a loaded module has exactly 4 entries,
    and its keys are exactly the four declared identifiers: none is missing
    and there is no other key. *)
Theorem both_mappings_have_exactly_four_entries {E} pkg (nodes : loader E)
    (s s' : state E) :
  init_module pkg nodes s = (inr tt, s') →
  ∃ dc dd,
    mapping_of class_name s' = Some dc ∧
    mapping_of display_name s' = Some dd ∧
    size dc = 4 ∧ size dd = 4 ∧
    (∀ k, is_Some (dc !! k) ↔ k ∈ declared_ids) ∧
    (∀ k, is_Some (dd !! k) ↔ k ∈ declared_ids).
Proof.
  intros (a & b & Hc & Hd)%init_module_mappings.
  exists (class_table a b), display_table.
  split; [assumption|]. split; [assumption|].
  split; [apply class_table_size|]. split; [apply display_table_size|].
  split; [apply class_table_is_Some | apply display_table_is_Some].
Qed.

Lemma both_mappings_have_exactly_four_entries_witness :
  init_module sample_pkg sample_nodes fresh_state = (inr tt, sample_loaded) ∧
  ∃ dc dd,
    mapping_of class_name sample_loaded = Some dc ∧
    mapping_of display_name sample_loaded = Some dd ∧
    size dc = 4 ∧ size dd = 4 ∧
    (∀ k, is_Some (dc !! k) ↔ k ∈ declared_ids) ∧
    (∀ k, is_Some (dd !! k) ↔ k ∈ declared_ids).
Proof.
  split; [vm_compute; reflexivity|].
  apply (both_mappings_have_exactly_four_entries sample_pkg sample_nodes fresh_state).
  vm_compute; reflexivity.
Defined.

Lemma registered_lookup_other a b (g : gmap string pyval) n :
  n ≠ class_name → n ≠ display_name → registered a b g !! n = g !! n.
Proof.
  intros Hc Hd. unfold registered.
  rewrite lookup_insert_ne by congruence. by rewrite lookup_insert_ne by congruence.
Qed.

(** C3: in the [NODE_CLASS_MAPPINGS] of a loaded module, the keys "Qwen2.5VL"
    and "QwenVL" are bound to one and the same value, the object the module
    knows as [QwenVL], and the keys "Qwen2.5" and "Qwen" are bound to one and
    the same value, the object the module knows as [Qwen]. *)
Theorem aliases_share_implementation {E} pkg (nodes : loader E) (s s' : state E) :
  init_module pkg nodes s = (inr tt, s') →
  ∃ dc QwenVL Qwen,
    mapping_of class_name s' = Some dc ∧
    globals s' !! "QwenVL" = Some QwenVL ∧
    globals s' !! "Qwen" = Some Qwen ∧
    dc !! "Qwen2.5VL" = Some QwenVL ∧ dc !! "QwenVL" = Some QwenVL ∧
    dc !! "Qwen2.5" = Some Qwen ∧ dc !! "Qwen" = Some Qwen ∧
    dc !! "Qwen2.5VL" = dc !! "QwenVL" ∧ dc !! "Qwen2.5" = dc !! "Qwen".
Proof.
  intros (si & a & b & _ & Ha & Hb & ->)%init_module_ok_inv.
  pose proof (class_table_lookup a b) as (H1 & H2 & H3 & H4).
  exists (class_table a b), a, b. simpl.
  rewrite !registered_lookup_other by discriminate.
  repeat split; try assumption; try congruence.
  apply mapping_of_class.
Qed.

Lemma aliases_share_implementation_witness :
  init_module sample_pkg sample_nodes fresh_state = (inr tt, sample_loaded) ∧
  ∃ dc QwenVL Qwen,
    mapping_of class_name sample_loaded = Some dc ∧
    globals sample_loaded !! "QwenVL" = Some QwenVL ∧
    globals sample_loaded !! "Qwen" = Some Qwen ∧
    dc !! "Qwen2.5VL" = Some QwenVL ∧ dc !! "QwenVL" = Some QwenVL ∧
    dc !! "Qwen2.5" = Some Qwen ∧ dc !! "Qwen" = Some Qwen ∧
    dc !! "Qwen2.5VL" = dc !! "QwenVL" ∧ dc !! "Qwen2.5" = dc !! "Qwen".
Proof.
  split; [vm_compute; reflexivity|].
  apply (aliases_share_implementation sample_pkg sample_nodes fresh_state).
  vm_compute; reflexivity.
Defined.

(** C4: in the [NODE_DISPLAY_NAME_MAPPINGS] of a loaded module, the value
    under every key is the string that is the key itself; so "Qwen2.5VL" is
    displayed as "Qwen2.5VL", and likewise for the three other keys. *)
Theorem display_name_is_the_key {E} pkg (nodes : loader E) (s s' : state E) :
  init_module pkg nodes s = (inr tt, s') →
  ∃ dd,
    mapping_of display_name s' = Some dd ∧
    (∀ k v, dd !! k = Some v → v = PyStr k) ∧
    dd !! "Qwen2.5VL" = Some (PyStr "Qwen2.5VL") ∧
    dd !! "Qwen2.5" = Some (PyStr "Qwen2.5") ∧
    dd !! "QwenVL" = Some (PyStr "QwenVL") ∧
    dd !! "Qwen" = Some (PyStr "Qwen").
Proof.
  intros (a & b & _ & Hd)%init_module_mappings.
  exists display_table. split; [assumption|].
  split; [apply display_table_value | apply display_table_lookup].
Qed.

Lemma display_name_is_the_key_witness :
  init_module sample_pkg sample_nodes fresh_state = (inr tt, sample_loaded) ∧
  ∃ dd,
    mapping_of display_name sample_loaded = Some dd ∧
    (∀ k v, dd !! k = Some v → v = PyStr k) ∧
    dd !! "Qwen2.5VL" = Some (PyStr "Qwen2.5VL") ∧
    dd !! "Qwen2.5" = Some (PyStr "Qwen2.5") ∧
    dd !! "QwenVL" = Some (PyStr "QwenVL") ∧
    dd !! "Qwen" = Some (PyStr "Qwen").
Proof.
  split; [vm_compute; reflexivity|].
  apply (display_name_is_the_key sample_pkg sample_nodes fresh_state).
  vm_compute; reflexivity.
Defined.

(** C5: the two mappings of a loaded module have the same set of keys, and
    the keys written in the display of [NODE_CLASS_MAPPINGS] (which are also
    those written for [NODE_DISPLAY_NAME_MAPPINGS]) are pairwise distinct
    strings. *)
Theorem same_keys_and_distinct {E} pkg (nodes : loader E) (s s' : state E) :
  init_module pkg nodes s = (inr tt, s') →
  ∃ dc dd,
    mapping_of class_name s' = Some dc ∧
    mapping_of display_name s' = Some dd ∧
    dom dd = dom dc ∧
    (∀ k, is_Some (dd !! k) ↔ is_Some (dc !! k)) ∧
    (@class_items E).*1 = (@display_items E).*1 ∧
    dom dc = list_to_set (@class_items E).*1 ∧
    NoDup (@class_items E).*1.
Proof.
  intros (a & b & Hc & Hd)%init_module_mappings.
  exists (class_table a b), display_table.
  split; [assumption|]. split; [assumption|].
  split; [by rewrite class_table_dom, display_table_dom|].
  split; [intros k; by rewrite class_table_is_Some, display_table_is_Some|].
  split; [reflexivity|].
  split; [apply class_table_dom | apply NoDup_declared_ids].
Qed.

Lemma same_keys_and_distinct_witness :
  init_module sample_pkg sample_nodes fresh_state = (inr tt, sample_loaded) ∧
  ∃ dc dd,
    mapping_of class_name sample_loaded = Some dc ∧
    mapping_of display_name sample_loaded = Some dd ∧
    dom dd = dom dc ∧
    (∀ k, is_Some (dd !! k) ↔ is_Some (dc !! k)) ∧
    (@class_items nat).*1 = (@display_items nat).*1 ∧
    dom dc = list_to_set (@class_items nat).*1 ∧
    NoDup (@class_items nat).*1.
Proof.
  split; [vm_compute; reflexivity|].
  apply (same_keys_and_distinct sample_pkg sample_nodes fresh_state).
  vm_compute; reflexivity.
Defined.

(** ** Duplicate keys in a display *)

Section Displays.
Context {E : Type}.
Implicit Types (s : state E).

Lemma eval_class_items s a b :
  globals s !! "QwenVL" = Some a → globals s !! "Qwen" = Some b →
  eval_items class_items s =
  (inr [("Qwen2.5VL", a); ("Qwen2.5", b); ("QwenVL", a); ("Qwen", b)], s).
Proof.
  intros Ha Hb. unfold class_items, eval_items.
  unfold mbind, M_bind, bind, load_name, ret, raise.
  repeat (rewrite ?Ha, ?Hb; cbv beta iota). reflexivity.
Qed.

Lemma eval_display_items s :
  eval_items display_items s =
  (inr [("Qwen2.5VL", PyStr "Qwen2.5VL"); ("Qwen2.5", PyStr "Qwen2.5");
        ("QwenVL", PyStr "QwenVL"); ("Qwen", PyStr "Qwen")], s).
Proof. reflexivity. Qed.

Lemma dict_display_run items s :
  dict_display items s =
  match eval_items items s with
  | (inl e, s') => (inl e, s')
  | (inr kvs, s') => (inr (PyDict (dict_of_items kvs)), s')
  end.
Proof. reflexivity. Qed.
End Displays.

(** C9: a display that lists a key more than once does not fail; the pair
    written last for the key is the one found in the dict.  The displays of
    the module list no key twice, so every pair they list is found in the
    mapping they build. *)
Theorem later_entry_wins_no_entry_lost {E} (s : state E) (a b : pyval)
    (kvs1 kvs2 : list (string * pyval)) (k : string) (v1 v2 : pyval) :
  k ∉ kvs2.*1 →
  globals s !! "QwenVL" = Some a →
  globals s !! "Qwen" = Some b →
  dict_of_items (kvs1 ++ (k, v2) :: kvs2) !! k = Some v2 ∧
  dict_display [(k, ret v1); (k, ret v2)] s = (inr (PyDict {[k := v2]}), s) ∧
  (∃ kvs,
     eval_items class_items s = (inr kvs, s) ∧
     NODE_CLASS_MAPPINGS s = (inr (PyDict (dict_of_items kvs)), s) ∧
     kvs.*1 = declared_ids ∧ NoDup kvs.*1 ∧
     ∀ k' x, (k', x) ∈ kvs → dict_of_items kvs !! k' = Some x) ∧
  (∃ kvs,
     eval_items display_items s = (inr kvs, s) ∧
     NODE_DISPLAY_NAME_MAPPINGS s = (inr (PyDict (dict_of_items kvs)), s) ∧
     kvs.*1 = declared_ids ∧ NoDup kvs.*1 ∧
     ∀ k' x, (k', x) ∈ kvs → dict_of_items kvs !! k' = Some x).
Proof.
  intros Hk Ha Hb.
  split; [by apply lookup_dict_of_items_last|].
  split.
  { rewrite dict_display_run. cbn [eval_items].
    unfold mbind, M_bind, bind, ret, dict_of_items. cbn [foldl fst snd].
    by rewrite insert_insert_eq, insert_empty. }
  split.
  - eexists. split; [by apply eval_class_items|].
    split; [unfold NODE_CLASS_MAPPINGS;
            by rewrite dict_display_run, (eval_class_items s a b)|].
    split; [reflexivity|].
    split; [apply NoDup_declared_ids|].
    intros k' x Hin. apply lookup_dict_of_items_NoDup; [apply NoDup_declared_ids | done].
  - eexists. split; [apply eval_display_items|].
    split; [reflexivity|].
    split; [reflexivity|].
    split; [apply NoDup_declared_ids|].
    intros k' x Hin. apply lookup_dict_of_items_NoDup; [apply NoDup_declared_ids | done].
Qed.

Lemma later_entry_wins_no_entry_lost_witness :
  ("Qwen" ∉ ([("QwenVL", PyObj 1)].*1 : list string)) ∧
  globals sample_loaded !! "QwenVL" = Some (PyObj 1) ∧
  globals sample_loaded !! "Qwen" = Some (PyObj 2) ∧
  (dict_of_items ([("Qwen", PyStr "old")] ++ ("Qwen", PyObj 2) :: [("QwenVL", PyObj 1)]))
    !! "Qwen" = Some (PyObj 2) ∧
  dict_display [("Qwen", ret (PyStr "old")); ("Qwen", ret (PyObj 2))] sample_loaded =
    (inr (PyDict {["Qwen" := PyObj 2]}), sample_loaded).
Proof.
  assert ("Qwen" ∉ ([("QwenVL", PyObj 1)].*1 : list string)) as Hk
    by (apply (bool_decide_unpack _); vm_compute; exact I).
  assert (globals sample_loaded !! "QwenVL" = Some (PyObj 1)) as Ha
    by (vm_compute; reflexivity).
  assert (globals sample_loaded !! "Qwen" = Some (PyObj 2)) as Hb
    by (vm_compute; reflexivity).
  split; [exact Hk|]. split; [exact Ha|]. split; [exact Hb|].
  destruct (later_entry_wins_no_entry_lost sample_loaded (PyObj 1) (PyObj 2)
              [("Qwen", PyStr "old")] [("QwenVL", PyObj 1)] "Qwen"
              (PyStr "old") (PyObj 2) Hk Ha Hb) as (H1 & H2 & _).
  split; [exact H1 | exact H2].
Defined.

(** ** The import and the namespace *)

Section StarImport.
Context {E : Type}.
Implicit Types (s : state E) (w : world E) (nodes : loader E) (pkg : string).
Implicit Types (g : gmap string pyval) (m : pymodule).

(** A successful import leaves the module in the cache, and a namespace
    in which its public names shadow whatever was there. *)
Lemma import_star_nodes_ok_inv pkg nodes s si :
  import_star_nodes pkg nodes s = (inr tt, si) →
  ∃ m loaded,
    sys_modules (st_world si) !! (pkg +:+ ".nodes") = Some m ∧
    globals si = star_imported m loaded (globals s) ∧
    star_ok m ∧
    (loaded = false → st_world si = st_world s) ∧
    (loaded = true → sys_modules (st_world s) !! (pkg +:+ ".nodes") = None ∧
                     (nodes (st_world s)).1 = inr m).
Proof.
  rewrite import_star_nodes_run.
  destruct (sys_modules (st_world s) !! (pkg +:+ ".nodes")) as [m|] eqn:Hc.
  - intros Hrun. pose proof (import_all_from_inv _ _ _ _ _ Hrun) as Hok.
    simpl in Hok. rewrite (import_all_from_star_ok m s Hok) in Hrun.
    injection Hrun as <-. exists m, false. simpl. by repeat split.
  - destruct (nodes (st_world s)) as [[e|m] w'] eqn:Hn; [discriminate|].
    intros Hrun. pose proof (import_all_from_inv _ _ _ _ _ Hrun) as Hok.
    simpl in Hok. rewrite (import_all_from_star_ok m _ Hok) in Hrun.
    injection Hrun as <-. exists m, true. simpl.
    rewrite lookup_insert_eq. by repeat split.
Qed.

Lemma import_star_nodes_cached pkg nodes s m :
  sys_modules (st_world s) !! (pkg +:+ ".nodes") = Some m →
  star_ok m →
  import_star_nodes pkg nodes s =
  (inr tt, State (st_world s) (mod_public m ∪ globals s)).
Proof.
  intros Hc Hok. rewrite import_star_nodes_run, Hc.
  by apply import_all_from_star_ok.
Qed.


Lemma star_imported_lookup m loaded g n :
  star_imported m loaded g !! n =
  match mod_public m !! n with
  | Some v => Some v
  | None => (if loaded then <["nodes" := PyObj (mod_obj m)]> g else g) !! n
  end.
Proof.
  unfold star_imported. rewrite lookup_union.
  destruct (mod_public m !! n) as [v|]; [|by rewrite (left_id None _)].
  by destruct (_ !! n).
Qed.

(** Importing again over a namespace that differs from an imported one
    at most under the two mapping names, and assigning again, gives the
    namespace of the first load. *)
Lemma registered_again m g g' n :
  (∀ k, k ≠ class_name → k ≠ display_name → g' !! k = (mod_public m ∪ g) !! k) →
  n ≠ class_name → n ≠ display_name →
  (mod_public m ∪ g') !! n = (mod_public m ∪ g) !! n.
Proof.
  intros Hg' Hc Hd. rewrite lookup_union, (Hg' n Hc Hd), !lookup_union.
  destruct (mod_public m !! n), (g !! n); reflexivity.
Qed.

Lemma registered_idem m g g' a b :
  (∀ k, k ≠ class_name → k ≠ display_name → g' !! k = (mod_public m ∪ g) !! k) →
  registered a b (mod_public m ∪ g') = registered a b (mod_public m ∪ g).
Proof.
  intros Hg'. apply map_eq. intros n. unfold registered.
  destruct (decide (n = display_name)) as [->|Hd]; [by rewrite !lookup_insert_eq|].
  rewrite !(lookup_insert_ne _ display_name) by congruence.
  destruct (decide (n = class_name)) as [->|Hc]; [by rewrite !lookup_insert_eq|].
  rewrite !(lookup_insert_ne _ class_name) by congruence.
  by eapply registered_again.
Qed.
End StarImport.

Lemma init_module_over_loaded {E} pkg (nodes : loader E) (w : world E) m g g' a b :
  sys_modules w !! (pkg +:+ ".nodes") = Some m →
  star_ok m →
  (mod_public m ∪ g) !! "QwenVL" = Some a →
  (mod_public m ∪ g) !! "Qwen" = Some b →
  (∀ k, k ≠ class_name → k ≠ display_name → g' !! k = (mod_public m ∪ g) !! k) →
  init_module pkg nodes (State w g') =
  (inr tt, State w (registered a b (mod_public m ∪ g))).
Proof.
  intros Hc Hok Ha Hb Hg'.
  rewrite init_module_run, (import_star_nodes_cached pkg nodes _ m) by assumption.
  simpl.
  rewrite (registered_again m g g' "QwenVL" Hg'), Ha by discriminate.
  rewrite (registered_again m g g' "Qwen" Hg'), Hb by discriminate.
  by rewrite (registered_idem m g g' a b Hg').
Qed.

(** C6: once the module has loaded, loading it again (the body is run again
    in the state the first load left, as a reload does) succeeds and leaves
    exactly the state of the first load: the world is untouched and both
    mappings are rebuilt with the same content.  Nothing stale survives: even
    if the two names have meanwhile been rebound to other values, the reload
    binds them to the content of the first load. *)
Theorem reload_rebuilds_same_mappings {E} pkg (nodes : loader E)
    (s s1 : state E) (vc vd : pyval) :
  init_module pkg nodes s = (inr tt, s1) →
  init_module pkg nodes s1 = (inr tt, s1) ∧
  init_module pkg nodes
    (State (st_world s1) (<[display_name := vd]> (<[class_name := vc]> (globals s1)))) =
  (inr tt, s1).
Proof.
  intros (si & a & b & Hi & Ha & Hb & ->)%init_module_ok_inv.
  apply import_star_nodes_ok_inv in Hi as (m & loaded & Hc & Hg & Hok & _).
  unfold star_imported in Hg. rewrite Hg in Ha, Hb |- *. simpl.
  split.
  - eapply init_module_over_loaded; try eassumption.
    intros k Hkc Hkd. by apply registered_lookup_other.
  - eapply init_module_over_loaded; try eassumption.
    intros k Hkc Hkd.
    rewrite !lookup_insert_ne by congruence. by apply registered_lookup_other.
Qed.

Lemma reload_rebuilds_same_mappings_witness :
  init_module sample_pkg sample_nodes fresh_state = (inr tt, sample_loaded) ∧
  init_module sample_pkg sample_nodes sample_loaded = (inr tt, sample_loaded) ∧
  init_module sample_pkg sample_nodes
    (State (st_world sample_loaded)
       (<[display_name := PyDict {["stale" := PyStr "entry"]}]>
          (<[class_name := PyStr "gone"]> (globals sample_loaded)))) =
  (inr tt, sample_loaded).
Proof.
  split; [vm_compute; reflexivity|].
  apply (reload_rebuilds_same_mappings sample_pkg sample_nodes fresh_state).
  vm_compute; reflexivity.
Defined.

(** ** Failure of a load *)




(** ** What a load changes *)

(** C8, as amended: apart from what loading [nodes] does, a load changes
    only the module's own namespace and the cache entry of [nodes].  The two
    assignments leave the world as the import statement left it and bind no
    name besides [NODE_CLASS_MAPPINGS] and [NODE_DISPLAY_NAME_MAPPINGS].
    When [nodes] is already cached, the world after the load is the world
    before it, and every name that is neither a public name of [nodes] nor one
    of the two mapping names keeps its binding, the name [nodes] included.
    When [nodes] is not cached, the world after the load is the one loading
    [nodes] left, with the cache changed for [nodes] alone, and once the module
    is loaded the name [nodes] is bound to it, unless a public name of the
    module takes its place. *)
Theorem load_frame {E} pkg (nodes : loader E) (s s' : state E) (r : pyexn + unit) :
  init_module pkg nodes s = (r, s') →
  st_world s' = st_world (import_star_nodes pkg nodes s).2 ∧
  (∀ n, n ≠ class_name → n ≠ display_name →
        globals s' !! n = globals (import_star_nodes pkg nodes s).2 !! n) ∧
  (∀ m, sys_modules (st_world s) !! (pkg +:+ ".nodes") = Some m →
        st_world s' = st_world s ∧
        ∀ n, n ≠ class_name → n ≠ display_name → mod_public m !! n = None →
             globals s' !! n = globals s !! n) ∧
  (sys_modules (st_world s) !! (pkg +:+ ".nodes") = None →
     env (st_world s') = env (nodes (st_world s)).2 ∧
     (∀ k, k ≠ pkg +:+ ".nodes" →
           sys_modules (st_world s') !! k = sys_modules (nodes (st_world s)).2 !! k) ∧
     ∀ m, sys_modules (st_world s') !! (pkg +:+ ".nodes") = Some m →
          mod_public m !! "nodes" = None →
          globals s' !! "nodes" = Some (PyObj (mod_obj m))).
Proof.
  intros Hrun.
  assert (st_world s' = st_world (import_star_nodes pkg nodes s).2 ∧
          ∀ n, n ≠ class_name → n ≠ display_name →
               globals s' !! n = globals (import_star_nodes pkg nodes s).2 !! n)
    as [Hw Hg].
  { rewrite init_module_run in Hrun.
    destruct (import_star_nodes pkg nodes s) as [[e|[]] si]; simpl.
    - injection Hrun as _ <-. by split.
    - destruct (globals si !! "QwenVL") as [a|];
        [destruct (globals si !! "Qwen") as [b|]|];
        injection Hrun as _ <-; split; try done.
      intros n Hc Hd. by apply registered_lookup_other. }
  split; [exact Hw|]. split; [exact Hg|].
  rewrite import_star_nodes_run in Hw, Hg.
  destruct (sys_modules (st_world s) !! (pkg +:+ ".nodes")) as [m|] eqn:Hc.
  - split; [|done]. intros ? [= <-].
    destruct (import_all_from_frame m (star_names m) s) as [Hw' Hg'].
    split; [by rewrite Hw|].
    intros n Hn1 Hn2 Hpub. rewrite Hg by done.
    apply Hg'. by apply mod_public_None.
  - split; [done|]. intros _.
    destruct (nodes (st_world s)) as [[e|m] w'] eqn:Hn; simpl in Hw, Hg.
    + rewrite Hw. simpl. split; [done|].
      split; [intros k Hk; by apply lookup_delete_ne|].
      intros m. by rewrite lookup_delete_eq.
    + destruct (import_all_from_frame m (star_names m)
        (State (World (<[pkg +:+ ".nodes" := m]> (sys_modules w')) (env w'))
               (<["nodes" := PyObj (mod_obj m)]> (globals s)))) as [Hw' Hg'].
      rewrite Hw, Hw'. simpl. split; [done|].
      split; [intros k Hk; by apply lookup_insert_ne|].
      rewrite lookup_insert_eq. intros ? [= <-] Hpub.
      rewrite Hg by discriminate. rewrite Hg' by (by apply mod_public_None).
      simpl. apply lookup_insert_eq.
Qed.

Lemma load_frame_witness :
  init_module sample_pkg bare_nodes stale_state =
    (inr tt, (init_module sample_pkg bare_nodes stale_state).2) ∧
  st_world (init_module sample_pkg bare_nodes stale_state).2 = st_world stale_state ∧
  (∀ n, n ≠ class_name → n ≠ display_name → mod_public bare_module !! n = None →
        globals (init_module sample_pkg bare_nodes stale_state).2 !! n =
        globals stale_state !! n) ∧
  init_module sample_pkg sample_nodes fresh_state = (inr tt, sample_loaded) ∧
  env (st_world sample_loaded) = env (sample_nodes (st_world fresh_state)).2 ∧
  globals sample_loaded !! "nodes" = Some (PyObj (mod_obj sample_module)).
Proof.
  assert (init_module sample_pkg bare_nodes stale_state =
            (inr tt, (init_module sample_pkg bare_nodes stale_state).2)) as Hrun1
    by (vm_compute; reflexivity).
  assert (init_module sample_pkg sample_nodes fresh_state = (inr tt, sample_loaded))
    as Hrun2 by (vm_compute; reflexivity).
  destruct (load_frame sample_pkg bare_nodes stale_state _ (inr tt) Hrun1)
    as (_ & _ & Hcached & _).
  destruct (Hcached bare_module) as [Hw Hnames]; [vm_compute; reflexivity|].
  destruct (load_frame sample_pkg sample_nodes fresh_state sample_loaded (inr tt) Hrun2)
    as (_ & _ & _ & Hfresh).
  destruct Hfresh as (Henv & _ & Hnodes); [vm_compute; reflexivity|].
  split; [exact Hrun1|]. split; [exact Hw|]. split; [exact Hnames|].
  split; [exact Hrun2|]. split; [exact Henv|].
  apply Hnodes; vm_compute; reflexivity.
Defined.

(** The claim C8 as written fails: a load binds more names than the two
    mappings, and the import statement enters [nodes] in the module cache,
    which lies outside the module.  With a [nodes] module that provides the
    two classes, the name [QwenVL], unbound before the load, is bound after
    it, and the cache, empty before the load, holds the module after it. *)
Lemma load_binds_more_than_two_names :
  init_module sample_pkg sample_nodes fresh_state = (inr tt, sample_loaded) ∧
  globals fresh_state !! "QwenVL" = None ∧
  globals sample_loaded !! "QwenVL" = Some (PyObj 1) ∧
  "QwenVL" ≠ class_name ∧ "QwenVL" ≠ display_name ∧
  sys_modules (st_world fresh_state) !! "SCG_LocalVLM.nodes" = None ∧
  sys_modules (st_world sample_loaded) !! "SCG_LocalVLM.nodes" = Some sample_module ∧
  ¬ (st_world sample_loaded = st_world fresh_state ∧
     ∀ n, n ≠ class_name → n ≠ display_name →
          globals sample_loaded !! n = globals fresh_state !! n).
Proof.
  split; [vm_compute; reflexivity|].
  split; [vm_compute; reflexivity|].
  split; [vm_compute; reflexivity|].
  split; [discriminate|]. split; [discriminate|].
  split; [vm_compute; reflexivity|].
  split; [vm_compute; reflexivity|].
  intros [_ H]. specialize (H "QwenVL"). vm_compute in H.
  assert (Some (PyObj 1) = @None pyval) as Habs by (apply H; discriminate).
  discriminate Habs.
Qed.

(** ** Names taken over from [nodes] *)

(** C10: after a load that succeeded, the module [nodes] is in the module
    cache and every one of its public names is bound in the namespace of this
    module, to the value it has in [nodes] unless it is one of the two mapping
    names, which hold the mappings.  So the namespace holds, besides
    [NODE_CLASS_MAPPINGS] and [NODE_DISPLAY_NAME_MAPPINGS], at least [QwenVL]
    and [Qwen]; and these two are public names of [nodes] whenever the
    namespace did not already bind them before the load. *)
Theorem star_import_reexports {E} pkg (nodes : loader E) (s s' : state E) :
  init_module pkg nodes s = (inr tt, s') →
  ∃ m,
    sys_modules (st_world s') !! (pkg +:+ ".nodes") = Some m ∧
    (∀ n v, mod_public m !! n = Some v → n ≠ class_name → n ≠ display_name →
            globals s' !! n = Some v) ∧
    (∀ n, is_Some (mod_public m !! n) → is_Some (globals s' !! n)) ∧
    is_Some (globals s' !! class_name) ∧
    is_Some (globals s' !! display_name) ∧
    is_Some (globals s' !! "QwenVL") ∧
    is_Some (globals s' !! "Qwen") ∧
    (globals s !! "QwenVL" = None → is_Some (mod_public m !! "QwenVL")) ∧
    (globals s !! "Qwen" = None → is_Some (mod_public m !! "Qwen")).
Proof.
  intros (si & a & b & Hi & Ha & Hb & ->)%init_module_ok_inv.
  apply import_star_nodes_ok_inv in Hi as (m & loaded & Hc & Hg & _).
  exists m. simpl. split; [exact Hc|].
  assert (∀ n v, mod_public m !! n = Some v → globals si !! n = Some v) as Hpub.
  { intros n v Hn. by rewrite Hg, star_imported_lookup, Hn. }
  assert (∀ n, n ≠ "nodes" → globals s !! n = None → globals si !! n = mod_public m !! n)
    as Hnew.
  { intros n Hn Hs. rewrite Hg, star_imported_lookup.
    destruct (mod_public m !! n); [reflexivity|].
    destruct loaded; [by rewrite lookup_insert_ne|done]. }
  split.
  { intros n v Hn Hnc Hnd. rewrite registered_lookup_other by assumption. eauto. }
  split.
  { intros n [v Hn]. unfold registered.
    destruct (decide (n = display_name)) as [->|Hd]; [by rewrite lookup_insert_eq|].
    rewrite lookup_insert_ne by congruence.
    destruct (decide (n = class_name)) as [->|Hcn]; [by rewrite lookup_insert_eq|].
    rewrite lookup_insert_ne by congruence. eauto. }
  split; [unfold registered; rewrite lookup_insert_ne by discriminate;
          by rewrite lookup_insert_eq|].
  split; [unfold registered; by rewrite lookup_insert_eq|].
  rewrite !registered_lookup_other by discriminate.
  split; [by rewrite Ha|]. split; [by rewrite Hb|].
  split; intros Hs.
  - rewrite <- (Hnew "QwenVL") by (discriminate || assumption). by rewrite Ha.
  - rewrite <- (Hnew "Qwen") by (discriminate || assumption). by rewrite Hb.
Qed.

Lemma star_import_reexports_witness :
  init_module sample_pkg sample_nodes fresh_state = (inr tt, sample_loaded) ∧
  ∃ m,
    sys_modules (st_world sample_loaded) !! (sample_pkg +:+ ".nodes") = Some m ∧
    (∀ n v, mod_public m !! n = Some v → n ≠ class_name → n ≠ display_name →
            globals sample_loaded !! n = Some v) ∧
    (∀ n, is_Some (mod_public m !! n) → is_Some (globals sample_loaded !! n)) ∧
    is_Some (globals sample_loaded !! class_name) ∧
    is_Some (globals sample_loaded !! display_name) ∧
    is_Some (globals sample_loaded !! "QwenVL") ∧
    is_Some (globals sample_loaded !! "Qwen") ∧
    (globals fresh_state !! "QwenVL" = None → is_Some (mod_public m !! "QwenVL")) ∧
    (globals fresh_state !! "Qwen" = None → is_Some (mod_public m !! "Qwen")).
Proof.
  split; [vm_compute; reflexivity|].
  apply (star_import_reexports sample_pkg sample_nodes fresh_state).
  vm_compute; reflexivity.
Defined.

(** ** The three outcomes on the sample collaborators *)

Example import_failure_is_passed_on :
  init_module sample_pkg broken_nodes fresh_state =
  (inl (Raised (PyObj 9)), State (World ∅ 1) ∅).
Proof. vm_compute; reflexivity. Qed.

Example missing_class_raises_name_error :
  (init_module sample_pkg bare_nodes fresh_state).1 = inl (NameError "QwenVL") ∧
  globals (init_module sample_pkg bare_nodes fresh_state).2 !! class_name = None ∧
  globals (init_module sample_pkg bare_nodes fresh_state).2 !! display_name = None.
Proof. repeat split; vm_compute; reflexivity. Qed.

Example missing_name_of_all_raises_attribute_error :
  (init_module sample_pkg partial_nodes fresh_state).1 =
    inl (AttributeError 3 "Qwen") ∧
  sys_modules (st_world (init_module sample_pkg partial_nodes fresh_state).2)
    !! "SCG_LocalVLM.nodes" = Some partial_module ∧
  globals (init_module sample_pkg partial_nodes fresh_state).2 !! "QwenVL" =
    Some (PyObj 1) ∧
  globals (init_module sample_pkg partial_nodes fresh_state).2 !! class_name = None.
Proof. repeat split; vm_compute; reflexivity. Qed.

Example sample_load_binds_both_mappings :
  mapping_of class_name sample_loaded = Some (class_table (PyObj 1) (PyObj 2)) ∧
  mapping_of display_name sample_loaded = Some display_table ∧
  globals sample_loaded !! "nodes" = Some (PyObj 3) ∧
  env (st_world sample_loaded) = 1.
Proof. repeat split; vm_compute; reflexivity. Qed.

(** * Further properties of the load *)

(** ** Where the registered classes come from *)

Section Provenance.
Context {E : Type}.
Implicit Types (s : state E) (nodes : loader E) (pkg : string) (m : pymodule).

Lemma init_module_after_import pkg nodes s si a b :
  import_star_nodes pkg nodes s = (inr tt, si) →
  globals si !! "QwenVL" = Some a →
  globals si !! "Qwen" = Some b →
  init_module pkg nodes s = (inr tt, State (st_world si) (registered a b (globals si))).
Proof. intros Hi Ha Hb. by rewrite init_module_run, Hi, Ha, Hb. Qed.

(** Importing once more over a namespace that already holds the public
    names of the cached module changes nothing, whatever the loader. *)
Lemma import_star_nodes_again pkg nodes s m g :
  sys_modules (st_world s) !! (pkg +:+ ".nodes") = Some m →
  star_ok m →
  globals s = mod_public m ∪ g →
  import_star_nodes pkg nodes s = (inr tt, s).
Proof.
  intros Hc Hok Hg. rewrite (import_star_nodes_cached pkg nodes s m Hc Hok).
  destruct s as [w gs]. simpl in *. f_equal. f_equal. subst gs.
  apply map_eq. intros n. rewrite !lookup_union.
  destruct (mod_public m !! n), (g !! n); reflexivity.
Qed.
End Provenance.


(** X1: the classes a successful load registers are the ones [nodes]
    provides: when the imported module has public names [QwenVL] and [Qwen],
    the class mapping is built from their values, whatever the namespace
    bound under these names before the load. *)
Theorem registered_classes_come_from_nodes {E} pkg (nodes : loader E)
    (s s' : state E) (m : pymodule) (a b : pyval) :
  init_module pkg nodes s = (inr tt, s') →
  sys_modules (st_world s') !! (pkg +:+ ".nodes") = Some m →
  mod_public m !! "QwenVL" = Some a →
  mod_public m !! "Qwen" = Some b →
  mapping_of class_name s' = Some (class_table a b) ∧
  globals s' !! "QwenVL" = Some a ∧
  globals s' !! "Qwen" = Some b.
Proof.
  intros (si & a' & b' & Hi & Ha & Hb & ->)%init_module_ok_inv Hm Hma Hmb.
  apply import_star_nodes_ok_inv in Hi as (m' & loaded & Hc & Hg & _).
  simpl in Hm. rewrite Hm in Hc. injection Hc as <-.
  rewrite Hg, star_imported_lookup in Ha, Hb.
  rewrite Hma in Ha. rewrite Hmb in Hb.
  injection Ha as <-. injection Hb as <-.
  simpl. rewrite !registered_lookup_other by discriminate.
  rewrite Hg, !star_imported_lookup, Hma, Hmb.
  split; [apply mapping_of_class | done].
Qed.

Lemma registered_classes_come_from_nodes_witness :
  init_module sample_pkg sample_nodes outdated_state =
    (inr tt, (init_module sample_pkg sample_nodes outdated_state).2) ∧
  globals outdated_state !! "QwenVL" = Some (PyObj 7) ∧
  mapping_of class_name (init_module sample_pkg sample_nodes outdated_state).2 =
    Some (class_table (PyObj 1) (PyObj 2)).
Proof.
  split; [vm_compute; reflexivity|]. split; [vm_compute; reflexivity|].
  apply (registered_classes_come_from_nodes sample_pkg sample_nodes outdated_state _
           sample_module (PyObj 1) (PyObj 2));
    vm_compute; reflexivity.
Defined.

(** X2: a class that [nodes] does not provide is taken from the namespace.
    When [nodes] is already cached, its import does not raise, it has no
    public name [QwenVL] or [Qwen], and the namespace binds both names (as
    after an earlier load), the load succeeds and registers the objects the
    namespace bound: a class dropped from [nodes] stays registered. *)
Theorem stale_classes_are_registered {E} pkg (nodes : loader E)
    (s : state E) (m : pymodule) (a b : pyval) :
  sys_modules (st_world s) !! (pkg +:+ ".nodes") = Some m →
  (import_star_nodes pkg nodes s).1 = inr tt →
  mod_public m !! "QwenVL" = None →
  mod_public m !! "Qwen" = None →
  globals s !! "QwenVL" = Some a →
  globals s !! "Qwen" = Some b →
  (init_module pkg nodes s).1 = inr tt ∧
  mapping_of class_name (init_module pkg nodes s).2 = Some (class_table a b) ∧
  globals (init_module pkg nodes s).2 !! "QwenVL" = Some a ∧
  globals (init_module pkg nodes s).2 !! "Qwen" = Some b.
Proof.
  intros Hc Hi Hma Hmb Ha Hb.
  destruct (import_star_nodes pkg nodes s) as [ri si] eqn:Hrun. simpl in Hi. subst ri.
  pose proof Hrun as Hfr. rewrite import_star_nodes_run, Hc in Hfr.
  destruct (import_all_from_frame m (star_names m) s) as [_ Hg].
  rewrite Hfr in Hg. simpl in Hg.
  rewrite (init_module_after_import pkg nodes s si a b Hrun).
  - simpl. rewrite !registered_lookup_other by discriminate.
    rewrite !Hg by (by apply mod_public_None).
    split; [done|]. split; [apply mapping_of_class | done].
  - rewrite Hg by (by apply mod_public_None). done.
  - rewrite Hg by (by apply mod_public_None). done.
Qed.

Lemma stale_classes_are_registered_witness :
  sys_modules (st_world stale_state) !! (sample_pkg +:+ ".nodes") = Some bare_module ∧
  (init_module sample_pkg broken_nodes stale_state).1 = inr tt ∧
  mapping_of class_name (init_module sample_pkg broken_nodes stale_state).2 =
    Some (class_table (PyObj 1) (PyObj 2)).
Proof.
  assert (sys_modules (st_world stale_state) !! (sample_pkg +:+ ".nodes") =
            Some bare_module) as Hc by (vm_compute; reflexivity).
  split; [exact Hc|].
  destruct (stale_classes_are_registered sample_pkg broken_nodes stale_state
              bare_module (PyObj 1) (PyObj 2) Hc) as (Hr & Hm & _);
    [vm_compute; reflexivity..|].
  split; [exact Hr | exact Hm].
Defined.

(** ** Running the body again *)

(** X3: once a load has succeeded, running the body again does not run the
   loader of [nodes]: whatever loader is supplied, even one that would
   raise, the run succeeds and leaves the state of the first load.  What
   [nodes] would provide if it were loaded afresh is not picked up. *)
Theorem rerun_does_not_run_the_loader {E} pkg (nodes nodes' : loader E)
    (s s1 : state E) :
  init_module pkg nodes s = (inr tt, s1) →
  init_module pkg nodes' s1 = (inr tt, s1).
Proof.
  intros (si & a & b & Hi & Ha & Hb & ->)%init_module_ok_inv.
  apply import_star_nodes_ok_inv in Hi as (m & loaded & Hc & Hg & Hok & _).
  unfold star_imported in Hg. rewrite Hg in Ha, Hb |- *. simpl.
  eapply init_module_over_loaded; try eassumption.
  intros k Hkc Hkd. by apply registered_lookup_other.
Qed.

Lemma rerun_does_not_run_the_loader_witness :
  init_module sample_pkg sample_nodes fresh_state = (inr tt, sample_loaded) ∧
  init_module sample_pkg broken_nodes sample_loaded = (inr tt, sample_loaded).
Proof.
  split; [vm_compute; reflexivity|].
  apply (rerun_does_not_run_the_loader sample_pkg sample_nodes broken_nodes fresh_state).
  vm_compute; reflexivity.
Defined.

(** X4: a load that failed with a [NameError] after a successful import
    fails in the same way when it is tried again, whatever loader is supplied:
    [nodes] stays in the module cache although the package did not load, so
    it is not loaded again. *)
Theorem name_error_persists {E} pkg (nodes nodes' : loader E)
    (s s' : state E) (e : pyexn) :
  import_star_nodes pkg nodes s = (inr tt, s') →
  init_module pkg nodes s = (inl e, s') →
  init_module pkg nodes' s' = (inl e, s').
Proof.
  intros Hi Hrun.
  pose proof Hi as (m & loaded & Hc & Hg & Hok & _)%import_star_nodes_ok_inv.
  unfold star_imported in Hg.
  rewrite init_module_run, Hi in Hrun.
  by rewrite init_module_run, (import_star_nodes_again pkg nodes' s' m _ Hc Hok Hg).
Qed.

Lemma name_error_persists_witness :
  let s' := (import_star_nodes sample_pkg bare_nodes fresh_state).2 in
  import_star_nodes sample_pkg bare_nodes fresh_state = (inr tt, s') ∧
  init_module sample_pkg bare_nodes fresh_state = (inl (NameError "QwenVL"), s') ∧
  init_module sample_pkg sample_nodes s' = (inl (NameError "QwenVL"), s').
Proof.
  intros s'.
  split; [vm_compute; reflexivity|]. split; [vm_compute; reflexivity|].
  apply (name_error_persists sample_pkg bare_nodes sample_nodes fresh_state);
    vm_compute; reflexivity.
Defined.

(** X5: a load that failed because loading [nodes] raised can be tried
    again.  When [nodes] is not cached and loading it raises, the load raises
    that exception and [nodes] is still not cached; so the next load from the
    state left runs the loader again, and if that yields a module that
    defines every name its wildcard import takes, with public [QwenVL] and
    [Qwen], the load succeeds, caches the module and registers these two. *)
Theorem failed_import_can_be_retried {E} pkg (nodes nodes' : loader E)
    (s : state E) (e : pyexn) (m : pymodule) (a b : pyval) :
  let s' := (init_module pkg nodes s).2 in
  sys_modules (st_world s) !! (pkg +:+ ".nodes") = None →
  (nodes (st_world s)).1 = inl e →
  (nodes' (st_world s')).1 = inr m →
  star_ok m →
  mod_public m !! "QwenVL" = Some a →
  mod_public m !! "Qwen" = Some b →
  (init_module pkg nodes s).1 = inl e ∧
  sys_modules (st_world s') !! (pkg +:+ ".nodes") = None ∧
  (init_module pkg nodes' s').1 = inr tt ∧
  sys_modules (st_world (init_module pkg nodes' s').2) !! (pkg +:+ ".nodes") = Some m ∧
  mapping_of class_name (init_module pkg nodes' s').2 = Some (class_table a b).
Proof.
  intros s' Hc Hn Hn' Hok Ha Hb.
  assert ((init_module pkg nodes s).1 = inl e ∧
          sys_modules (st_world s') !! (pkg +:+ ".nodes") = None) as [Hr Hc'].
  { unfold s'. rewrite init_module_run, import_star_nodes_run, Hc.
    destruct (nodes (st_world s)) as [[e'|m'] w']; [|discriminate].
    simpl in Hn. injection Hn as ->. simpl. by rewrite lookup_delete_eq. }
  split; [exact Hr|]. split; [exact Hc'|].
  destruct (nodes' (st_world s')) as [rn w''] eqn:Hrun'. simpl in Hn'. subst rn.
  assert (import_star_nodes pkg nodes' s' =
          (inr tt, State (World (<[pkg +:+ ".nodes" := m]> (sys_modules w'')) (env w''))
                         (star_imported m true (globals s')))) as Hi'.
  { rewrite import_star_nodes_run, Hc', Hrun'. by apply import_all_from_star_ok. }
  rewrite (init_module_after_import pkg nodes' s' _ a b Hi').
  - simpl. rewrite lookup_insert_eq.
    split; [done|]. split; [done | apply mapping_of_class].
  - simpl. by rewrite star_imported_lookup, Ha.
  - simpl. by rewrite star_imported_lookup, Hb.
Qed.

Lemma failed_import_can_be_retried_witness :
  let s' := (init_module sample_pkg broken_nodes fresh_state).2 in
  (init_module sample_pkg broken_nodes fresh_state).1 = inl (Raised (PyObj 9)) ∧
  sys_modules (st_world s') !! (sample_pkg +:+ ".nodes") = None ∧
  (init_module sample_pkg sample_nodes s').1 = inr tt ∧
  sys_modules (st_world (init_module sample_pkg sample_nodes s').2)
    !! (sample_pkg +:+ ".nodes") = Some sample_module ∧
  mapping_of class_name (init_module sample_pkg sample_nodes s').2 =
    Some (class_table (PyObj 1) (PyObj 2)).
Proof.
  apply (failed_import_can_be_retried sample_pkg broken_nodes sample_nodes
           fresh_state (Raised (PyObj 9)) sample_module (PyObj 1) (PyObj 2));
    try (vm_compute; reflexivity).
  apply star_ok_without_all. reflexivity.
Defined.

(** ** The dict of a display *)

Section Builder.
Implicit Types (kvs : list (string * pyval)) (k : string) (v : pyval).

(** A value found in the dict was written for that key. *)
Lemma lookup_dict_of_items_elem_of kvs k v :
  dict_of_items kvs !! k = Some v → (k, v) ∈ kvs.
Proof.
  induction kvs as [|[k' v'] kvs IH] using rev_ind.
  - unfold dict_of_items. simpl. by rewrite lookup_empty.
  - rewrite dict_of_items_snoc, elem_of_app, list_elem_of_singleton.
    destruct (decide (k' = k)) as [->|Hne].
    + rewrite lookup_insert_eq. intros [= ->]. by right.
    + rewrite lookup_insert_ne by done. auto.
Qed.

Lemma dict_of_items_dom kvs : dom (dict_of_items kvs) = list_to_set kvs.*1.
Proof.
  induction kvs as [|[k v] kvs IH] using rev_ind.
  - unfold dict_of_items. simpl. apply dom_empty_L.
  - rewrite dict_of_items_snoc, dom_insert_L, IH, fmap_app, list_to_set_app_L.
    simpl. rewrite (right_id_L ∅ (∪)). apply (comm_L (∪)).
Qed.

Lemma size_list_to_set_le (l : list string) :
  (size (list_to_set l : gset string) ≤ length l)%nat.
Proof.
  induction l as [|x l IH].
  - rewrite list_to_set_nil, size_empty. reflexivity.
  - rewrite list_to_set_cons. cbn [length].
    rewrite size_union_alt, size_singleton.
    assert (size (list_to_set l ∖ {[x]} : gset string) ≤ size (list_to_set l : gset string))%nat
      by (apply subseteq_size, subseteq_difference_l; reflexivity).
    lia.
Qed.

Lemma size_list_to_set_NoDup (l : list string) :
  size (list_to_set l : gset string) = length l → NoDup l.
Proof.
  induction l as [|x l IH]; [constructor|].
  rewrite list_to_set_cons. cbn [length]. intros Hsz.
  pose proof (size_list_to_set_le l) as Hle.
  destruct (decide (x ∈ l)) as [Hin|Hnin].
  - exfalso.
    assert ({[x]} ∪ list_to_set l = (list_to_set l : gset string)) as Heq.
    { apply subseteq_union_1_L, singleton_subseteq_l, elem_of_list_to_set, Hin. }
    rewrite Heq in Hsz. lia.
  - constructor; [done|]. apply IH.
    rewrite size_union, size_singleton in Hsz; [lia|].
    apply disjoint_singleton_l. by rewrite elem_of_list_to_set.
Qed.
End Builder.

(** X7: the dict a display builds has exactly the keys written in it, so
    never more entries than pairs written, and as many entries as pairs
    exactly when no key is written twice. *)
Theorem display_has_one_entry_per_distinct_key (kvs : list (string * pyval)) :
  dom (dict_of_items kvs) = list_to_set kvs.*1 ∧
  (size (dict_of_items kvs) ≤ length kvs)%nat ∧
  (size (dict_of_items kvs) = length kvs ↔ NoDup kvs.*1).
Proof.
  rewrite <- size_dom, dict_of_items_dom, <- (length_fmap fst kvs).
  split; [done|]. split; [apply size_list_to_set_le|].
  split; [apply size_list_to_set_NoDup | apply size_list_to_set].
Qed.

(** X8: when no key is written twice, a display whose pairs are written in
    another order builds a dict with the same content: the same keys, and the
    same value under each.  (The order in which the dict yields its keys,
    which follows the order written, is not represented here.) *)
Theorem display_order_is_irrelevant (kvs kvs' : list (string * pyval)) :
  NoDup kvs.*1 → kvs ≡ₚ kvs' →
  ∀ k, dict_of_items kvs !! k = dict_of_items kvs' !! k.
Proof.
  intros Hnd Hperm k.
  assert (NoDup kvs'.*1) as Hnd' by (by rewrite <- Hperm).
  apply option_eq. intros v. split; intros Hk.
  - apply lookup_dict_of_items_NoDup; [done|].
    rewrite <- Hperm. by apply lookup_dict_of_items_elem_of.
  - apply lookup_dict_of_items_NoDup; [done|].
    rewrite Hperm. by apply lookup_dict_of_items_elem_of.
Qed.

Lemma display_order_is_irrelevant_witness :
  NoDup [("Qwen2.5VL", PyObj 1); ("Qwen2.5", PyObj 2);
         ("QwenVL", PyObj 1); ("Qwen", PyObj 2)].*1 ∧
  ∀ k, dict_of_items [("Qwen2.5", PyObj 2); ("Qwen2.5VL", PyObj 1);
                      ("QwenVL", PyObj 1); ("Qwen", PyObj 2)] !! k =
       class_table (PyObj 1) (PyObj 2) !! k.
Proof.
  assert (NoDup [("Qwen2.5VL", PyObj 1); ("Qwen2.5", PyObj 2);
                 ("QwenVL", PyObj 1); ("Qwen", PyObj 2)].*1) as Hnd
    by (apply (bool_decide_unpack _); vm_compute; exact I).
  split; [exact Hnd|]. intros k. symmetry.
  apply (display_order_is_irrelevant _ _ Hnd). apply perm_swap.
Defined.

Section ClassKeys.
Implicit Types (a b v : pyval) (k : string).

Lemma class_table_lookup_inv a b k v :
  class_table a b !! k = Some v →
  (k = "Qwen2.5VL" ∨ k = "QwenVL") ∧ v = a ∨
  (k = "Qwen2.5" ∨ k = "Qwen") ∧ v = b.
Proof.
  intros Hk. pose proof (class_table_lookup a b) as (H1 & H2 & H3 & H4).
  assert (k ∈ declared_ids) as Hin by (apply (class_table_is_Some a b); eauto).
  apply elem_of_declared_ids in Hin as [-> | [-> | [-> | ->]]];
    [left | right | left | right]; split; auto; congruence.
Qed.
End ClassKeys.

(** X6: when the two classes are different objects, the identifiers
    registered for [QwenVL] are exactly "Qwen2.5VL" and "QwenVL", and the
    identifiers registered for [Qwen] are exactly "Qwen2.5" and "Qwen". *)
Theorem class_keys_by_implementation {E} pkg (nodes : loader E)
    (s s' : state E) (a b : pyval) :
  init_module pkg nodes s = (inr tt, s') →
  globals s' !! "QwenVL" = Some a →
  globals s' !! "Qwen" = Some b →
  a ≠ b →
  ∃ dc, mapping_of class_name s' = Some dc ∧
        (∀ k, dc !! k = Some a ↔ k = "Qwen2.5VL" ∨ k = "QwenVL") ∧
        (∀ k, dc !! k = Some b ↔ k = "Qwen2.5" ∨ k = "Qwen").
Proof.
  intros (si & a' & b' & _ & Ha' & Hb' & ->)%init_module_ok_inv Ha Hb Hab.
  simpl in Ha, Hb. rewrite registered_lookup_other in Ha, Hb by discriminate.
  assert (a' = a) as -> by congruence. assert (b' = b) as -> by congruence.
  exists (class_table a b). split; [apply mapping_of_class|].
  pose proof (class_table_lookup a b) as (H1 & H2 & H3 & H4).
  split; intros k; split.
  - intros [[Hk _] | [_ Heq]]%class_table_lookup_inv; [done | congruence].
  - by intros [-> | ->].
  - intros [[_ Heq] | [Hk _]]%class_table_lookup_inv; [congruence | done].
  - by intros [-> | ->].
Qed.

Lemma class_keys_by_implementation_witness :
  init_module sample_pkg sample_nodes fresh_state = (inr tt, sample_loaded) ∧
  ∃ dc, mapping_of class_name sample_loaded = Some dc ∧
        (∀ k, dc !! k = Some (PyObj 1) ↔ k = "Qwen2.5VL" ∨ k = "QwenVL") ∧
        (∀ k, dc !! k = Some (PyObj 2) ↔ k = "Qwen2.5" ∨ k = "Qwen").
Proof.
  split; [vm_compute; reflexivity|].
  apply (class_keys_by_implementation sample_pkg sample_nodes fresh_state);
    [vm_compute; reflexivity .. | discriminate].
Defined.

(** ** The two mappings together *)

(** X9: the mappings depend on nothing but the two classes.  Two loads that
    succeed, under any package names, with any loaders and from any states,
    build the same display-name mapping, and the same class mapping as soon
    as their namespaces bind [QwenVL] and [Qwen] to the same objects. *)
Theorem mappings_depend_only_on_the_classes {E F} pkg1 pkg2
    (nodes1 : loader E) (nodes2 : loader F)
    (s1 s1' : state E) (s2 s2' : state F) :
  init_module pkg1 nodes1 s1 = (inr tt, s1') →
  init_module pkg2 nodes2 s2 = (inr tt, s2') →
  mapping_of display_name s1' = mapping_of display_name s2' ∧
  (globals s1' !! "QwenVL" = globals s2' !! "QwenVL" →
   globals s1' !! "Qwen" = globals s2' !! "Qwen" →
   mapping_of class_name s1' = mapping_of class_name s2').
Proof.
  intros (si1 & a1 & b1 & _ & Ha1 & Hb1 & ->)%init_module_ok_inv
         (si2 & a2 & b2 & _ & Ha2 & Hb2 & ->)%init_module_ok_inv.
  rewrite !mapping_of_class, !mapping_of_display. split; [reflexivity|].
  simpl. rewrite !registered_lookup_other by discriminate.
  rewrite Ha1, Ha2, Hb1, Hb2. by intros [= ->] [= ->].
Qed.

Lemma mappings_depend_only_on_the_classes_witness :
  init_module sample_pkg sample_nodes fresh_state = (inr tt, sample_loaded) ∧
  init_module "other" bare_nodes stale_state =
    (inr tt, (init_module "other" bare_nodes stale_state).2) ∧
  mapping_of display_name sample_loaded =
    mapping_of display_name (init_module "other" bare_nodes stale_state).2 ∧
  mapping_of class_name sample_loaded =
    mapping_of class_name (init_module "other" bare_nodes stale_state).2.
Proof.
  split; [vm_compute; reflexivity|]. split; [vm_compute; reflexivity|].
  destruct (mappings_depend_only_on_the_classes sample_pkg "other"
              sample_nodes bare_nodes fresh_state sample_loaded stale_state
              (init_module "other" bare_nodes stale_state).2) as [Hd Hc];
    [vm_compute; reflexivity..|].
  split; [exact Hd|]. apply Hc; vm_compute; reflexivity.
Defined.

(** X10: every identifier registered in [NODE_CLASS_MAPPINGS] has a display
    name: looking up a key of the class mapping in
    [NODE_DISPLAY_NAME_MAPPINGS] never misses, and finds the identifier
    itself as a string; conversely every identifier with a display name is
    registered, for the object bound to [QwenVL] or to [Qwen]. *)
Theorem every_registered_id_has_a_display_name {E} pkg (nodes : loader E)
    (s s' : state E) :
  init_module pkg nodes s = (inr tt, s') →
  ∃ dc dd,
    mapping_of class_name s' = Some dc ∧
    mapping_of display_name s' = Some dd ∧
    (∀ k v, dc !! k = Some v → dd !! k = Some (PyStr k)) ∧
    (∀ k v, dd !! k = Some v →
            dc !! k = globals s' !! "QwenVL" ∨ dc !! k = globals s' !! "Qwen").
Proof.
  intros (si & a & b & _ & Ha & Hb & ->)%init_module_ok_inv.
  exists (class_table a b), display_table.
  split; [apply mapping_of_class|]. split; [apply mapping_of_display|].
  simpl. rewrite !registered_lookup_other by discriminate. rewrite Ha, Hb.
  pose proof (class_table_lookup a b) as (H1 & H2 & H3 & H4).
  pose proof display_table_lookup as (D1 & D2 & D3 & D4).
  split; intros k v Hk.
  - assert (k ∈ declared_ids) as Hin by (apply (class_table_is_Some a b); eauto).
    apply elem_of_declared_ids in Hin as [-> | [-> | [-> | ->]]]; assumption.
  - assert (k ∈ declared_ids) as Hin by (apply display_table_is_Some; eauto).
    apply elem_of_declared_ids in Hin as [-> | [-> | [-> | ->]]]; auto.
Qed.

Lemma every_registered_id_has_a_display_name_witness :
  init_module sample_pkg sample_nodes fresh_state = (inr tt, sample_loaded) ∧
  ∃ dc dd,
    mapping_of class_name sample_loaded = Some dc ∧
    mapping_of display_name sample_loaded = Some dd ∧
    (∀ k v, dc !! k = Some v → dd !! k = Some (PyStr k)) ∧
    (∀ k v, dd !! k = Some v →
            dc !! k = globals sample_loaded !! "QwenVL" ∨
            dc !! k = globals sample_loaded !! "Qwen").
Proof.
  split; [vm_compute; reflexivity|].
  apply (every_registered_id_has_a_display_name sample_pkg sample_nodes fresh_state).
  vm_compute; reflexivity.
Defined.
